(** * ipyloading: a shallow embedding of [src/ipyloading/loading.py]

    The package declares Python 2.7 (setup.py classifiers), so the
    embedding follows Python 2.7 semantics: [string.Template], mixed-type
    comparison (None < numbers < str), [int()] and [float()] of strings.
    Python floats are modelled by exact rationals [Q]. *)

From Stdlib Require Import QArith Qabs Qminmax Qround Ascii String.
From stdpp Require Import base gmap strings pretty list.

Open Scope string_scope.

(* ------------------------------------------------------------------ *)
(** ** Python values *)

(** The values the widget's parameter bag holds: [None], [int],
    [float] and [str]. *)
Inductive pyval :=
| VNone
| VInt (z : Z)
| VFloat (q : Q)
| VStr (s : string).

(** Exceptions the code can raise. *)
Inductive exc := TypeError | ValueError | KeyError.

(** Python truthiness, as used by [if not border] / [if not margin]. *)
Definition truthy (v : pyval) : bool :=
  match v with
  | VNone => false
  | VInt z => negb (Z.eqb z 0)
  | VFloat q => negb (Qeq_bool q 0)
  | VStr s => negb (String.eqb s "")
  end.

(** Numeric view of a value ([int] and [float]). *)
Definition py_num (v : pyval) : option Q :=
  match v with
  | VInt z => Some (inject_Z z)
  | VFloat q => Some q
  | _ => None
  end.

(** [a * b] on numbers: int * int is an int, anything with a float is a
    float; [None] or [str] operands with a float raise [TypeError]. *)
Definition py_mul (a b : pyval) : exc + pyval :=
  match a, b with
  | VInt x, VInt y => inr (VInt (x * y))
  | _, _ =>
      match py_num a, py_num b with
      | Some x, Some y => inr (VFloat (x * y))
      | _, _ => inl TypeError
      end
  end.

(** [a + b] on numbers. *)
Definition py_add (a b : pyval) : exc + pyval :=
  match a, b with
  | VInt x, VInt y => inr (VInt (x + y))
  | _, _ =>
      match py_num a, py_num b with
      | Some x, Some y => inr (VFloat (x + y))
      | _, _ => inl TypeError
      end
  end.

(** Byte-wise lexicographic [<] on strings. *)
Fixpoint str_lt (s t : string) : bool :=
  match s, t with
  | EmptyString, String _ _ => true
  | _, EmptyString => false
  | String a s', String b t' =>
      let x := nat_of_ascii a in
      let y := nat_of_ascii b in
      if Nat.ltb x y then true
      else if Nat.eqb x y then str_lt s' t' else false
  end.

(** Python 2 [a > b]: numbers compare by value, [None] is below every
    other value, numbers are below every [str], strings compare
    lexicographically.  It never raises. *)
Definition py_gt (a b : pyval) : bool :=
  match a, b with
  | VNone, _ => false
  | _, VNone => true
  | VStr x, VStr y => str_lt y x
  | VStr _, _ => true
  | _, VStr _ => false
  | _, _ =>
      match py_num a, py_num b with
      | Some x, Some y => negb (Qle_bool x y)
      | _, _ => false
      end
  end.

(* ------------------------------------------------------------------ *)
(** ** Characters and strings *)

Definition is_digit (c : ascii) : bool :=
  let n := nat_of_ascii c in (Nat.leb 48 n && Nat.leb n 57)%nat.

Definition is_alpha (c : ascii) : bool :=
  let n := nat_of_ascii c in
  ((Nat.leb 65 n && Nat.leb n 90) || (Nat.leb 97 n && Nat.leb n 122))%nat.

(** [[_a-z]] under [re.IGNORECASE] (the first character of an
    identifier in [Template.idpattern]). *)
Definition is_id_start (c : ascii) : bool :=
  is_alpha c || Ascii.eqb c "_"%char.

(** [[_a-z0-9]] under [re.IGNORECASE]. *)
Definition is_id_char (c : ascii) : bool :=
  is_id_start c || is_digit c.


(** Python slices [s[-k:]] and [s[:-k]] (for k > 0). *)
Definition py_suffix (k : nat) (s : string) : string :=
  substring (String.length s - k)%nat k s.

Definition py_drop_last (k : nat) (s : string) : string :=
  substring 0 (String.length s - k)%nat s.

Definition chr (c : ascii) : string := String c EmptyString.

(* ------------------------------------------------------------------ *)
(** ** [string.Template.safe_substitute] (Python 2.7)

    The pattern is
a [$] followed by one of: [$] (escaped), an identifier
    [[_a-z][_a-z0-9]]-star (named), the same identifier in braces
    (braced), or nothing (invalid),
    with [re.IGNORECASE], and [safe_substitute] replaces each match with
    [convert(mo)] through [re.sub]: the mapped value for a known name,
    the matched text for an unknown one, ["$"] for an escape or an
    invalid [$].  The scanner below is the matching automaton of that
    regular expression, one character at a time. *)
Module Template.

  (** A match of the pattern, or a character of literal text. *)
Inductive tok :=
  | TLit (c : ascii)
  | TEsc
  | TNamed (n : string)
  | TBraced (n : string)
  | TInvalid.

  (** Scanner state: inside literal text, just after a [$], inside a
      [$name], just after [${], inside [${name]. *)
Inductive sstate :=
  | Normal
  | AfterDollar
  | InNamed (acc : string)
  | InBraceStart
  | InBraced (acc : string).

Definition lits (s : string) : list tok := map TLit (list_ascii_of_string s).

  (** A character read in literal text. *)
Definition normal_step (c : ascii) : list tok * sstate :=
    if Ascii.eqb c "$"%char then ([], AfterDollar) else ([TLit c], Normal).

  (** One character of input.  A failed [${name] falls back to the
      [invalid] alternative: the [$] alone is the match and the text after
      it, which holds no [$], is literal. *)
Definition step (st : sstate) (c : ascii) : list tok * sstate :=
    match st with
    | Normal => normal_step c
    | AfterDollar =>
        if Ascii.eqb c "$"%char then ([TEsc], Normal)
        else if is_id_start c then ([], InNamed (chr c))
        else if Ascii.eqb c "{"%char then ([], InBraceStart)
        else let '(ts, st') := normal_step c in (TInvalid :: ts, st')
    | InNamed acc =>
        if is_id_char c then ([], InNamed (acc ++ chr c))
        else let '(ts, st') := normal_step c in (TNamed acc :: ts, st')
    | InBraceStart =>
        if is_id_start c then ([], InBraced (chr c))
        else let '(ts, st') := normal_step c in (TInvalid :: TLit "{"%char :: ts, st')
    | InBraced acc =>
        if is_id_char c then ([], InBraced (acc ++ chr c))
        else if Ascii.eqb c "}"%char then ([TBraced acc], Normal)
        else let '(ts, st') := normal_step c in
             (TInvalid :: TLit "{"%char :: app (lits acc) ts, st')
    end.

  (** End of input in each state. *)
Definition flush (st : sstate) : list tok :=
    match st with
    | Normal => []
    | AfterDollar => [TInvalid]
    | InNamed acc => [TNamed acc]
    | InBraceStart => [TInvalid; TLit "{"%char]
    | InBraced acc => TInvalid :: TLit "{"%char :: lits acc
    end.

Fixpoint scan (st : sstate) (s : string) : list tok * sstate :=
    match s with
    | EmptyString => ([], st)
    | String c r =>
        let '(ts1, st1) := step st c in
        let '(ts2, st2) := scan st1 r in
        (app ts1 ts2, st2)
    end.

Definition tokenize (s : string) : list tok :=
    let '(ts, st) := scan Normal s in app ts (flush st).

  (** [convert(mo)] of [safe_substitute]. *)
Definition convert (mapping : gmap string string) (t : tok) : string :=
    match t with
    | TLit c => chr c
    | TEsc => "$"
    | TNamed n =>
        match mapping !! n with Some v => v | None => "$" ++ n end
    | TBraced n =>
        match mapping !! n with Some v => v | None => "${" ++ n ++ "}" end
    | TInvalid => "$"
    end.

Definition safe_substitute (template : string) (mapping : gmap string string) : string :=
    String.concat "" (map (convert mapping) (tokenize template)).



End Template.


(* ------------------------------------------------------------------ *)
(** ** [int()], [float()] and [str()] *)

Definition is_space (c : ascii) : bool :=
  let n := nat_of_ascii c in (Nat.eqb n 32 || (Nat.leb 9 n && Nat.leb n 13))%nat.

Fixpoint drop_space (l : list ascii) : list ascii :=
  match l with
  | c :: r => if is_space c then drop_space r else l
  | [] => []
  end.

(** Surrounding whitespace is skipped by [int()] and [float()]. *)
Definition strip (l : list ascii) : list ascii := rev (drop_space (rev (drop_space l))).

Fixpoint span_digits (l : list ascii) : list ascii * list ascii :=
  match l with
  | c :: r =>
      if is_digit c then let '(ds, rest) := span_digits r in (c :: ds, rest)
      else ([], l)
  | [] => ([], [])
  end.

Definition digit_val (c : ascii) : Z := Z.of_nat (nat_of_ascii c - 48).

Definition digits_val (ds : list ascii) : Z :=
  fold_left (fun acc c => 10 * acc + digit_val c)%Z ds 0%Z.

Definition take_sign (l : list ascii) : bool * list ascii :=
  match l with
  | c :: r =>
      if Ascii.eqb c "-"%char then (true, r)
      else if Ascii.eqb c "+"%char then (false, r)
      else (false, l)
  | [] => (false, [])
  end.

(** Python 2 [int(s)] (base 10): optional whitespace and sign, then one
    or more decimal digits; anything else is a [ValueError] ([None]). *)
Definition parse_int (s : string) : option Z :=
  let '(neg, l) := take_sign (strip (list_ascii_of_string s)) in
  match span_digits l with
  | ((_ :: _) as ds, []) => Some (if neg then Z.opp (digits_val ds) else digits_val ds)
  | _ => None
  end.

(** Python 2 [float(s)] on decimal literals: optional whitespace and
    sign, digits with an optional fraction (at least one digit in all),
    an optional exponent.  The special spellings [inf] and [nan] have no
    rational value and are not modelled. *)
Definition parse_float (s : string) : option Q :=
  let '(neg, l) := take_sign (strip (list_ascii_of_string s)) in
  let '(ip, r1) := span_digits l in
  let '(fp, r2) :=
    match r1 with
    | c :: r => if Ascii.eqb c "."%char then span_digits r else ([], r1)
    | [] => ([], [])
    end in
  let mant := digits_val (app ip fp) in
  let mant := if neg then Z.opp mant else mant in
  let exp :=
    match r2 with
    | [] => Some 0%Z
    | c :: r =>
        if Ascii.eqb c "e"%char || Ascii.eqb c "E"%char then
          let '(eneg, r') := take_sign r in
          match span_digits r' with
          | ((_ :: _) as es, []) =>
              Some (if eneg then Z.opp (digits_val es) else digits_val es)
          | _ => None
          end
        else None
    end in
  match ip, fp, exp with
  | [], [], _ => None
  | _, _, None => None
  | _, _, Some e =>
      let E := (e - Z.of_nat (length fp))%Z in
      if Z.leb 0 E then Some (inject_Z (mant * 10 ^ E))
      else Some (Qmake mant (Z.to_pos (10 ^ (- E))))
  end.

(** [float(v)]. *)
Definition py_float (v : pyval) : exc + Q :=
  match v with
  | VInt z => inr (inject_Z z)
  | VFloat q => inr q
  | VStr s => match parse_float s with Some q => inr q | None => inl ValueError end
  | VNone => inl TypeError
  end.

Fixpoint pad_zeros (n : nat) (s : string) : string :=
  match n with
  | O => s
  | S n' => if Nat.leb (S n') (String.length s) then s else "0" ++ pad_zeros n' s
  end.

Fixpoint strip_trailing_zeros_l (l : list ascii) : list ascii :=
  match l with
  | [] => []
  | c :: r =>
      match strip_trailing_zeros_l r with
      | [] => if Ascii.eqb c "0"%char then [] else [c]
      | r' => c :: r'
      end
  end.

Fixpoint ndigits_fuel (fuel : nat) (z : Z) : nat :=
  match fuel with
  | O => O
  | S f => if Z.ltb z 10 then 1 else S (ndigits_fuel f (z / 10))
  end.

(** Number of zeros right after the point of a positive [a < 1]. *)
Fixpoint lead_zeros (fuel : nat) (k : nat) (a : Q) : nat :=
  match fuel with
  | O => k
  | S f =>
      if Qle_bool 1 (a * inject_Z (10 ^ Z.of_nat (S k))) then k
      else lead_zeros f (S k) a
  end.

(** Python 2 [str(x)] for a float: ["%.12g"], with [".0"] added to an
    integral result.  Rounding is half-up on the exact rational and the
    exponent form (used below 1e-4 and from 1e12) is not modelled. *)
Definition fmt_float (q : Q) : string :=
  let a := Qabs q in
  let ip := (Qnum a / Zpos (Qden a))%Z in
  let f : nat :=
    if Z.ltb 0 ip then (12 - ndigits_fuel 64 ip)%nat
    else (12 + lead_zeros 400 0 a)%nat in
  let scale := (10 ^ Z.of_nat f)%Z in
  let n := Qfloor (a * inject_Z scale + (1 # 2)) in
  let ipart := (n / scale)%Z in
  let frac := pad_zeros f (pretty (n mod scale)%Z) in
  let frac := string_of_list_ascii (strip_trailing_zeros_l (list_ascii_of_string frac)) in
  let frac := if String.eqb frac "" then "0" else frac in
  (if Qlt_le_dec q 0 then "-" else "") ++ pretty ipart ++ "." ++ frac.

(** [str(v)], as ['%s' % (v,)] does in [safe_substitute]. *)
Definition py_str (v : pyval) : string :=
  match v with
  | VNone => "None"
  | VInt z => pretty z
  | VFloat q => fmt_float q
  | VStr s => s
  end.

Example py_str_examples :
  map py_str [VInt 20; VFloat (20 * (8 # 10)); VFloat (16 * (1 # 10));
              VFloat (1 # 3); VFloat (-(5 # 2)); VFloat 0; VNone]
  = ["20"; "16.0"; "1.6"; "0.333333333333"; "-2.5"; "0.0"; "None"].
Proof. vm_compute. reflexivity. Qed.

Example parse_examples :
  (parse_int " 42 ", parse_int "5px", parse_float "50", parse_float "-1.5e2",
   parse_float "abc", parse_float ".5", parse_float ".")
  = (Some 42%Z, None, Some 50%Q, Some (-150)%Q, None, Some (5 # 10)%Q, None).
Proof. vm_compute. reflexivity. Qed.

(* ------------------------------------------------------------------ *)
(** ** The widget *)

(** An instance of [Loading] (or a subclass): the attributes its
    methods read and write.  [value] is the [HTML] widget's trait. *)
Record widget := mk_widget {
  css : string;
  html : string;
  uid : string;
  extra : gmap string pyval;
  css_params : gmap string pyval;
  _size : pyval;
  _border : pyval;
  _margin : pyval;
  _color : pyval;
  _background_color : pyval;
  value : string
}.

(** The private attributes behind the five properties. *)
Inductive attr := ASize | ABorder | AMargin | AColor | ABackgroundColor.

(** The key of [params] each property setter reads back. *)
Definition attr_key (a : attr) : string :=
  match a with
  | ASize => "size" | ABorder => "border" | AMargin => "margin"
  | AColor => "color" | ABackgroundColor => "background_color"
  end.

Definition with_attr (a : attr) (v : pyval) (w : widget) : widget :=
  let 'mk_widget c h u e p s b m co bg vl := w in
  match a with
  | ASize => mk_widget c h u e p v b m co bg vl
  | ABorder => mk_widget c h u e p s v m co bg vl
  | AMargin => mk_widget c h u e p s b v co bg vl
  | AColor => mk_widget c h u e p s b m v bg vl
  | ABackgroundColor => mk_widget c h u e p s b m co v vl
  end.

Definition with_params (p : gmap string pyval) (w : widget) : widget :=
  let 'mk_widget c h u e _ s b m co bg vl := w in mk_widget c h u e p s b m co bg vl.

Definition with_value (vl : string) (w : widget) : widget :=
  let 'mk_widget c h u e p s b m co bg _ := w in mk_widget c h u e p s b m co bg vl.

(** What the code makes observable besides the widget's attributes: an
    assignment to [self.value] (a render) and a [print]. *)
Inductive event := ERender (out : string) | EPrint (msg : string).

(** Outcome of running a method: a result or a raised exception, the
    widget afterwards, and the events emitted on the way. *)
Inductive res (A : Type) :=
| Ok (a : A) (w : widget) (tr : list event)
| Err (e : exc) (w : widget) (tr : list event).
Arguments Ok {A}.
Arguments Err {A}.

(** Methods thread the instance [self] and may raise. *)
Definition M (A : Type) := widget -> res A.

Definition ret {A} (a : A) : M A := fun w => Ok a w [].

Definition bind {A B} (m : M A) (k : A -> M B) : M B :=
  fun w =>
    match m w with
    | Ok a w1 t1 =>
        match k a w1 with
        | Ok b w2 t2 => Ok b w2 (app t1 t2)
        | Err e w2 t2 => Err e w2 (app t1 t2)
        end
    | Err e w1 t1 => Err e w1 t1
    end.

Notation "'let*' x ':=' m 'in' k" := (bind m (fun x => k))
  (at level 200, x name, m at level 100, k at level 200).

Definition get : M widget := fun w => Ok w w [].
Definition modify (f : widget -> widget) : M unit := fun w => Ok tt (f w) [].
Definition raise {A} (e : exc) : M A := fun w => Err e w [].
Definition emit (ev : event) : M unit := fun w => Ok tt w [ev].
Definition lift {A} (r : exc + A) : M A :=
  match r with inl e => raise e | inr a => ret a end.

(** [d[key]]. *)
Definition getitem (d : gmap string pyval) (key : string) : exc + pyval :=
  match d !! key with Some v => inr v | None => inl KeyError end.

(* ------------------------------------------------------------------ *)
(** ** Templates of the source *)

Definition nl : string := chr (ascii_of_nat 10).
Definition dq : string := chr (ascii_of_nat 34).
Definition lines (ls : list string) : string := String.concat nl ls.

(** [self.template] of [Loading.__init__]. *)
Definition template_text : string :=
  lines [
    "";
    "        <head>";
    "          <style>";
    "            ${css}";
    "          </style>";
    "        </head>";
    "        <body>";
    "          <div class=" ++ dq ++ "${css_class}" ++ dq ++ ">";
    "            ${html}";
    "          </div>";
    "        </body>";
    "        "
  ].

(** [css] of [Ring.__init__]. *)
Definition ring_css : string :=
  lines [
    "";
    "        .${css_class} {";
    "          display: inline-block;";
    "          position: relative;";
    "          width: ${width}px;";
    "          height: ${height}px;";
    "        }";
    "        .${css_class} div {";
    "          box-sizing: border-box;";
    "          display: block;";
    "          position: absolute;";
    "          width: ${inner_width}px;";
    "          height: ${inner_height}px;";
    "          margin: ${margin}px;";
    "          border: ${border}px solid ${color};";
    "          border-radius: 50%;";
    "          animation: ${css_class} 1.2s cubic-bezier(0.5, 0, 0.5, 1) infinite;";
    "          border-color: ${color} transparent transparent transparent;";
    "          background-color: ${background_color};";
    "        }";
    "        .${css_class} div:nth-child(1) {";
    "          animation-delay: -0.45s;";
    "        }";
    "        .${css_class} div:nth-child(2) {";
    "          animation-delay: -0.3s;";
    "        }";
    "        .${css_class} div:nth-child(3) {";
    "          animation-delay: -0.15s;";
    "        }";
    "        @keyframes ${css_class} {";
    "          0% {";
    "            transform: rotate(0deg);";
    "          }";
    "          100% {";
    "            transform: rotate(360deg);";
    "          }";
    "        }";
    "        "
  ].

(** [html] of [Ring.__init__]. *)
Definition ring_html : string :=
  lines [
    "        ";
    "        <div></div>";
    "        <div></div>";
    "        <div></div>";
    "        <div></div>";
    "        "
  ].

(* ------------------------------------------------------------------ *)
(** ** [Loading.render] *)

(** The markup [render] assigns to [self.value]. *)
Definition render_out (w : widget) : string :=
  let css' := Template.safe_substitute (css w) (py_str <$> css_params w) in
  let html' := Template.safe_substitute (html w) {[ "css_class" := uid w ]} in
  Template.safe_substitute template_text
    (<[ "css" := css' ]> (<[ "html" := html' ]> {[ "css_class" := uid w ]})).

Definition render : M unit :=
  fun w => let out := render_out w in Ok tt (with_value out w) [ERender out].

(* ------------------------------------------------------------------ *)
(** ** The [compute_*] hooks and the property setters *)

(** The class of the instance, which selects the [compute_*] overrides. *)
Inductive cls := Loading | Ring.

(** [compute_size]: [Loading] returns [dict(size=size)]; [Ring] adds
    width, height and the inner dimensions at 0.8 of the size. *)
Definition compute_size (c : cls) (size : pyval) : M (gmap string pyval) :=
  match c with
  | Loading => ret {[ "size" := size ]}
  | Ring =>
      let width := size in
      let height := size in
      let* inner_width := lift (py_mul size (VFloat (8 # 10))) in
      let* inner_height := lift (py_mul size (VFloat (8 # 10))) in
      ret (<[ "inner_width" := inner_width ]> (<[ "inner_height" := inner_height ]>
           (<[ "width" := width ]> (<[ "height" := height ]> {[ "size" := size ]}))))
  end.

(** The body shared by the five property setters: merge the computed
    [params] into [css_params], store [params[key]] in the private
    attribute, render. *)
Definition setter (a : attr) (compute : M (gmap string pyval)) : M unit :=
  let* params := compute in
  let* _ := modify (fun w => with_params (params ∪ css_params w) w) in
  let* v := lift (getitem params (attr_key a)) in
  let* _ := modify (with_attr a v) in
  render.

(** The [size] property setter. *)
Definition set_size (c : cls) (size : pyval) : M unit :=
  setter ASize (compute_size c size).

(** [compute_border]: [Ring] defaults a falsy border to 0.1 of the inner
    height, reads a ['%'] or ['px'] suffix, and trims to half the inner
    height. *)
Definition compute_border (c : cls) (border : pyval) : M (gmap string pyval) :=
  match c with
  | Loading => ret {[ "border" := border ]}
  | Ring =>
      let* w := get in
      let* ih := lift (getitem (css_params w) "inner_height") in
      let* size := lift (py_float ih) in
      let* border :=
        if negb (truthy border) then ret (VFloat (size * (1 # 10))%Q)
        else
          match border with
          | VInt _ | VFloat _ => ret border
          | VStr s =>
              let last := py_suffix 1 s in
              let last2 := py_suffix 2 s in
              if String.eqb last "%" then
                let* number := lift (py_float (VStr (py_drop_last 1 s))) in
                let number := (number / inject_Z 100)%Q in
                ret (VFloat (size * number)%Q)
              else if String.eqb last2 "px" then
                let* number := lift (py_float (VStr (py_drop_last 2 s))) in
                ret (VFloat number)
              else ret border
          | VNone => ret border
          end in
      if py_gt border (VFloat (size * (5 # 10))%Q)
      then ret {[ "border" := VFloat (size * (5 # 10))%Q ]}
      else ret {[ "border" := border ]}
  end.

Definition set_border (c : cls) (border : pyval) : M unit :=
  setter ABorder (compute_border c border).

(** [compute_margin]: [Ring] defaults a falsy margin to 0.1 of the size,
    converts a string with [int()], and when the margin exceeds 0.1 of
    the size prints a warning and assigns [self.size] anew. *)
Definition compute_margin (c : cls) (margin : pyval) : M (gmap string pyval) :=
  match c with
  | Loading => ret {[ "margin" := margin ]}
  | Ring =>
      let* w := get in
      let* margin :=
        if negb (truthy margin) then lift (py_mul (_size w) (VFloat (1 # 10)))
        else
          match margin with
          | VInt _ | VFloat _ => ret margin
          | VStr s =>
              match parse_int s with
              | Some z => ret (VInt z)
              | None => raise ValueError
              end
          | VNone => ret margin
          end in
      let* w := get in
      let* limit := lift (py_mul (_size w) (VFloat (1 # 10))) in
      if py_gt margin limit then
        let* _ := emit (EPrint "margin overfitted") in
        let* w := get in
        let* ih := lift (getitem (css_params w) "inner_height") in
        let* inner := lift (py_float ih) in
        let* twice := lift (py_mul (VInt 2) margin) in
        let* new_size := lift (py_add (VFloat inner) twice) in
        let* _ := set_size c new_size in
        ret {[ "margin" := margin ]}
      else ret {[ "margin" := margin ]}
  end.

Definition set_margin (c : cls) (margin : pyval) : M unit :=
  setter AMargin (compute_margin c margin).

(** [compute_color] and [compute_background_color] (not overridden). *)
Definition compute_color (color : pyval) : M (gmap string pyval) :=
  ret {[ "color" := color ]}.

Definition compute_background_color (color : pyval) : M (gmap string pyval) :=
  ret {[ "background_color" := color ]}.

Definition set_color (color : pyval) : M unit :=
  setter AColor (compute_color color).

Definition set_background_color (color : pyval) : M unit :=
  setter ABackgroundColor (compute_background_color color).

(* ------------------------------------------------------------------ *)
(** ** Construction *)

(** The keyword arguments [dict(...)] of [Loading.__init__] names
    explicitly; an [extra] key among them is a duplicate keyword. *)
Definition fixed_keys : list string :=
  ["size"; "color"; "border"; "background_color"; "css_class"].

(** The instance before the property assignments of [__init__]: the
    class attributes [_border], [_size], [_margin] are [None], the
    [HTML] widget's [value] is empty. *)
Definition init_widget (css html uid : string) (extra : gmap string pyval)
    (size color background_color border : pyval) : widget :=
  mk_widget css html uid extra
    (<[ "size" := size ]> (<[ "color" := color ]> (<[ "border" := border ]>
      (<[ "background_color" := background_color ]>
        (<[ "css_class" := VStr uid ]> extra)))))
    VNone VNone VNone VNone VNone "".

(** The statements of [Loading.__init__] after [super().__init__]. *)
Definition init_body (c : cls) (size color background_color border margin : pyval) : M unit :=
  let* _ := set_size c size in
  let* _ := set_border c border in
  let* _ := set_margin c margin in
  let* _ := set_color color in
  let* _ := set_background_color background_color in
  render.

(** [Loading(size, color, background_color, border, margin, extra, css,
    html)] (for [c = Loading]) or the same call made by [Ring.__init__]
    (for [c = Ring]), with [uid] the fresh identifier ['a' + str(uuid4())]. *)
Definition construct (c : cls) (size color background_color border margin : pyval)
    (extra : gmap string pyval) (css html uid : string) : res unit :=
  let w0 := init_widget css html uid extra size color background_color border in
  if existsb (fun k => bool_decide (k ∈ dom extra)) fixed_keys
  then Err TypeError w0 []
  else init_body c size color background_color border margin w0.

(** [Ring(size=..., color=..., background_color=..., border=...,
    margin=..., extra=...)]. *)
Definition construct_ring (size color background_color border margin : pyval)
    (extra : gmap string pyval) (uid : string) : res unit :=
  construct Ring size color background_color border margin extra ring_css ring_html uid.


(** A fresh identifier as [uuid4] produces them. *)
Definition uid1 : string := "a6f1c2b3e-4d5a-4b6c-8d7e-9f0a1b2c3d4e".

(** [Ring()] with the constructor's defaults. *)
Definition ring_default (u : string) : res unit :=
  construct_ring (VInt 20) (VStr "black") (VStr "") VNone VNone ∅ u.

(** ** Auxiliary definitions for the properties *)

(** The widget after a property setter whose hook returned [params]
    (read back as [v]) from the widget [w]. *)
Definition after_set (a : attr) (params : gmap string pyval) (v : pyval) (w : widget) : widget :=
  let w2 := with_attr a v (with_params (params ∪ css_params w) w) in
  with_value (render_out w2) w2.

Definition ring_size_keys : gset string :=
  {[ "inner_width"; "inner_height"; "width"; "height"; "size" ]}.

(** The dictionary [Ring.compute_size] builds for a number [n] of
    value [q]. *)
Definition ring_size_params (n : pyval) (q : Q) : gmap string pyval :=
  let inner := VFloat (q * (8 # 10)) in
  <[ "inner_width" := inner ]> (<[ "inner_height" := inner ]>
    (<[ "width" := n ]> (<[ "height" := n ]> {[ "size" := n ]}))).

(** [setBorder(b)] on a [Ring] stores, in [_border] and in
    [css_params['border']], a number equal to [x], at most half [d]. *)
Definition sets_border_to (w : widget) (b : pyval) (d x : Q) : Prop :=
  exists w' v y,
    set_border Ring b w = Ok tt w' [ERender (value w')] /\
    _border w' = v /\ css_params w' !! "border" = Some v /\
    py_num v = Some y /\ (y == x)%Q /\ (y <= d * (5 # 10))%Q.

(** The widget a run leaves, returned or raised. *)
Definition res_state {A} (r : res A) : widget :=
  match r with Ok _ w _ => w | Err _ w _ => w end.

(** The same outcome, with the widget replaced. *)
Definition restate {A} (w : widget) (r : res A) : res A :=
  match r with Ok a _ tr => Ok a w tr | Err e _ tr => Err e w tr end.

(** The value [Ring.compute_margin] settles on, before the overflow test. *)
Definition margin_pre (size margin : pyval) : exc + pyval :=
  if negb (truthy margin) then py_mul size (VFloat (1 # 10))
  else
    match margin with
    | VStr s => match parse_int s with Some z => inr (VInt z) | None => inl ValueError end
    | _ => inr margin
    end.

(** The overflow branch of [Ring.compute_margin], after its warning. *)
Definition margin_tail (margin : pyval) : M (gmap string pyval) :=
  let* w := get in
  let* ih := lift (getitem (css_params w) "inner_height") in
  let* inner := lift (py_float ih) in
  let* twice := lift (py_mul (VInt 2) margin) in
  let* new_size := lift (py_add (VFloat inner) twice) in
  let* _ := set_size Ring new_size in
  ret {[ "margin" := margin ]}.

(** The widget [Ring()] builds with the constructor's defaults. *)
Definition ring_w0 : widget := res_state (ring_default uid1).

(** A call of one of the five property setters. *)
Inductive op :=
| OpSize (v : pyval)
| OpBorder (v : pyval)
| OpMargin (v : pyval)
| OpColor (v : pyval)
| OpBackgroundColor (v : pyval).

Definition run_op (c : cls) (o : op) : M unit :=
  match o with
  | OpSize v => set_size c v
  | OpBorder v => set_border c v
  | OpMargin v => set_margin c v
  | OpColor v => set_color v
  | OpBackgroundColor v => set_background_color v
  end.

Definition is_margin (o : op) : bool :=
  match o with OpMargin _ => true | _ => false end.

(** Setter calls one after the other, stopping at the first exception. *)
Fixpoint run_ops (c : cls) (os : list op) : M unit :=
  match os with
  | [] => ret tt
  | o :: os' => let* _ := run_op c o in run_ops c os'
  end.

(** The [Ring] bag's derived dimensions agree with [_size]: [width],
    [height] and [size] are [_size], the inner dimensions 0.8 of it. *)
Definition ring_inv (w : widget) : Prop :=
  exists q, py_num (_size w) = Some q /\
    forall k, k ∈ ring_size_keys -> css_params w !! k = ring_size_params (_size w) q !! k.

(** A piece of markup: literal text, or the instance's identifier. *)
Definition piece : Type := (string + unit)%type.

Definition fill (sk : list piece) (u : string) : string :=
  String.concat "" (map (fun p => match p with inl s => s | inr _ => u end) sk).

Definition id_piece : list piece := [inr tt].









(** [s.replace(old, new)]: every occurrence of [old], left to right,
    without overlaps; [skip] counts the characters of a match still to drop. *)
Fixpoint replace_go (old new : string) (skip : nat) (s : string) : string :=
  match s with
  | EmptyString => EmptyString
  | String c r =>
      match skip with
      | S k => replace_go old new k r
      | O =>
          if String.prefix old s
          then new ++ replace_go old new (String.length old - 1) r
          else String c (replace_go old new 0 r)
      end
  end.

Definition replace_all (old new s : string) : string := replace_go old new 0 s.



(* ================================================================== *)
(** * Properties *)

(** Unfolding of the monad's plumbing. *)
Ltac run_m :=
  cbv [bind ret lift modify get raise emit getitem render] in *.

Lemma setter_ok (a : attr) (compute : M (gmap string pyval)) (w w1 : widget)
    (params : gmap string pyval) (tr : list event) (v : pyval) :
  compute w = Ok params w1 tr ->
  params !! attr_key a = Some v ->
  setter a compute w =
    Ok tt (after_set a params v w1) (app tr [ERender (value (after_set a params v w1))]).
Proof.
  intros Hc Hv. unfold setter. unfold bind at 1. rewrite Hc.
  run_m. rewrite Hv. unfold after_set.
  destruct w1, a; cbn; rewrite ?app_nil_r; reflexivity.
Qed.

Lemma setter_err (a : attr) (compute : M (gmap string pyval)) (w w1 : widget)
    (e : exc) (tr : list event) :
  compute w = Err e w1 tr -> setter a compute w = Err e w1 tr.
Proof. intros Hc. unfold setter, bind at 1. rewrite Hc. reflexivity. Qed.

(** The parameters [Ring.compute_size] returns for a number [n]. *)
Lemma py_mul_num_float (n : pyval) (q r : Q) :
  py_num n = Some q -> py_mul n (VFloat r) = inr (VFloat (q * r)%Q).
Proof. destruct n; simpl; intros H; inversion H; reflexivity. Qed.

Lemma ring_compute_size_ok (n : pyval) (q : Q) (w : widget) :
  py_num n = Some q -> compute_size Ring n w = Ok (ring_size_params n q) w [].
Proof.
  intros Hn. unfold compute_size. run_m. rewrite (py_mul_num_float n q _ Hn). reflexivity.
Qed.

Lemma ring_size_params_size (n : pyval) (q : Q) :
  ring_size_params n q !! "size" = Some n.
Proof. unfold ring_size_params. simplify_map_eq. reflexivity. Qed.

Lemma set_size_ring_ok (n : pyval) (q : Q) (w : widget) :
  py_num n = Some q ->
  set_size Ring n w =
    Ok tt (after_set ASize (ring_size_params n q) n w)
       [ERender (value (after_set ASize (ring_size_params n q) n w))].
Proof.
  intros Hn. unfold set_size.
  exact (setter_ok ASize _ w w _ [] n (ring_compute_size_ok n q w Hn) (ring_size_params_size n q)).
Qed.

(** C5: for a number [n], [Ring.compute_size n] returns exactly the keys
    [width], [height], [inner_width], [inner_height], [size], with
    [width = height = size = n] and [inner_width = inner_height = n * 0.8],
    and the [size] setter merges all of them into [css_params]. *)
Theorem ring_compute_size_spec (n : pyval) (q : Q) (w : widget) :
  py_num n = Some q ->
  exists params,
    compute_size Ring n w = Ok params w [] /\
    dom params = ring_size_keys /\
    params !! "width" = Some n /\ params !! "height" = Some n /\
    params !! "size" = Some n /\
    params !! "inner_width" = Some (VFloat (q * (8 # 10))) /\
    params !! "inner_height" = Some (VFloat (q * (8 # 10))) /\
    exists w',
      set_size Ring n w = Ok tt w' [ERender (value w')] /\
      css_params w' = params ∪ css_params w /\
      _size w' = n.
Proof.
  intros Hn.
  pose proof (py_mul_num_float n q (8 # 10) Hn) as Hm.
  set (inner := VFloat (q * (8 # 10))).
  set (params := <[ "inner_width" := inner ]> (<[ "inner_height" := inner ]>
           (<[ "width" := n ]> (<[ "height" := n ]> {[ "size" := n ]}))) : gmap string pyval).
  exists params.
  assert (Hc : compute_size Ring n w = Ok params w []).
  { unfold compute_size. run_m. rewrite Hm. reflexivity. }
  assert (Hsz : params !! "size" = Some n).
  { unfold params. simplify_map_eq. reflexivity. }
  split; [exact Hc|].
  split; [unfold params, ring_size_keys; rewrite !dom_insert_L, dom_singleton_L; set_solver|].
  split; [unfold params; simplify_map_eq; reflexivity|].
  split; [unfold params; simplify_map_eq; reflexivity|].
  split; [exact Hsz|].
  split; [unfold params; simplify_map_eq; reflexivity|].
  split; [unfold params; simplify_map_eq; reflexivity|].
  exists (after_set ASize params n w).
  unfold set_size. rewrite (setter_ok ASize _ w w params [] n Hc Hsz).
  split; [reflexivity|]. destruct w; split; reflexivity.
Qed.

Open Scope Q_scope.

(** String slicing facts for suffixed literals. *)
Lemma length_app (s t : string) :
  String.length (s ++ t) = (String.length s + String.length t)%nat.
Proof. induction s as [|c s IH]; simpl; [reflexivity|now rewrite IH]. Qed.

Lemma substring_after_prefix (pre t : string) (n : nat) :
  substring (String.length pre) n (pre ++ t) = substring 0 n t.
Proof. induction pre as [|c pre IH]; simpl; [reflexivity|exact IH]. Qed.

Lemma substring_prefix (pre t : string) :
  substring 0 (String.length pre) (pre ++ t) = pre.
Proof. induction pre as [|c pre IH]; simpl; [now destruct t|now rewrite IH]. Qed.

Lemma py_suffix_app (pre t : string) (k : nat) :
  String.length t = k -> py_suffix k (pre ++ t) = t.
Proof.
  intros Hk. unfold py_suffix. rewrite length_app, Hk, Nat.add_sub.
  rewrite substring_after_prefix. subst k. clear.
  induction t as [|c t IH]; simpl; [reflexivity|now rewrite IH].
Qed.

Lemma py_drop_last_app (pre t : string) (k : nat) :
  String.length t = k -> py_drop_last k (pre ++ t) = pre.
Proof.
  intros Hk. unfold py_drop_last. rewrite length_app, Hk, Nat.add_sub.
  apply substring_prefix.
Qed.

Lemma py_suffix_px_1 (pre : string) : py_suffix 1 (pre ++ "px") = "x".
Proof.
  unfold py_suffix. rewrite length_app. simpl String.length.
  replace (String.length pre + 2 - 1)%nat with (S (String.length pre)) by lia.
  induction pre as [|c pre IH]; simpl; [reflexivity|exact IH].
Qed.

Lemma truthy_str_app (pre : string) (c : ascii) (t : string) :
  truthy (VStr (pre ++ String c t)) = true.
Proof. destruct pre; reflexivity. Qed.

(** The trim of [Ring.compute_border] on a number [r]. *)
Lemma clamp_num (r : pyval) (y c : Q) :
  py_num r = Some y ->
  exists z, py_num (if py_gt r (VFloat c) then VFloat c else r) = Some z /\
            z == Qmin y c /\ z <= c.
Proof.
  intros Hr.
  assert (Hgt : py_gt r (VFloat c) = negb (Qle_bool y c)).
  { destruct r; simpl in *; inversion Hr; reflexivity. }
  rewrite Hgt. destruct (Qle_bool y c) eqn:E; simpl.
  - apply Qle_bool_iff in E. exists y. split; [exact Hr|].
    split; [symmetry; now apply Q.min_l|exact E].
  - exists c. split; [reflexivity|].
    assert (c <= y).
    { apply Qlt_le_weak, Qnot_le_lt. intros H. apply Qle_bool_iff in H. congruence. }
    split; [symmetry; now apply Q.min_r|apply Qle_refl].
Qed.

(** Running [set_border] from the pre-trim border [r]. *)
Lemma ring_border_from_raw (w : widget) (b r : pyval) (d y : Q) :
  compute_border Ring b w =
    Ok {[ "border" := if py_gt r (VFloat (d * (5 # 10))) then VFloat (d * (5 # 10)) else r ]} w [] ->
  py_num r = Some y ->
  sets_border_to w b d (Qmin y (d * (5 # 10))).
Proof.
  intros Hc Hr.
  destruct (clamp_num r y (d * (5 # 10)) Hr) as (z & Hz & Hzq & Hzle).
  set (v := if py_gt r (VFloat (d * (5 # 10))) then VFloat (d * (5 # 10)) else r) in *.
  unfold sets_border_to, set_border.
  rewrite (setter_ok ABorder _ w w _ [] v Hc ltac:(simpl; simplify_map_eq; reflexivity)).
  eexists _, v, z. split; [reflexivity|].
  destruct w; cbn. split; [reflexivity|].
  split; [apply lookup_union_Some_l; simplify_map_eq; reflexivity|].
  split; [exact Hz|]. split; assumption.
Qed.

Lemma sets_border_to_proper (w : widget) (b : pyval) (d x x' : Q) :
  x == x' -> sets_border_to w b d x -> sets_border_to w b d x'.
Proof.
  intros Hx (w' & v & y & H1 & H2 & H3 & H4 & H5 & H6).
  exists w', v, y. repeat split; try assumption. now rewrite H5.
Qed.

(** Evaluating [Ring.compute_border] once the raw border is known. *)
Ltac border_run Hih :=
  unfold compute_border; cbv [bind get lift getitem ret raise py_float]; rewrite Hih;
  cbv beta iota zeta delta [negb].

(** C1: on a [Ring] whose [inner_height] is [d], [setBorder] stores
    the clamp [min(raw, 0.5 d)] of the raw value: [0.1 d] for a falsy
    input, [(p/100) d] for ["<p>%"], [p] for ["<p>px"], [n] for a
    (truthy) number [n]; the stored border never exceeds [0.5 d]; and
    for [d >= 0], ["50%"] and ["120%"] both give [0.5 d]. *)
Theorem ring_set_border_spec (w : widget) (d : Q) :
  css_params w !! "inner_height" = Some (VFloat d) ->
  (forall b, truthy b = false ->
     sets_border_to w b d (Qmin ((1 # 10) * d) ((5 # 10) * d))) /\
  (forall pre p, parse_float pre = Some p ->
     sets_border_to w (VStr (pre ++ "%")) d (Qmin ((p / 100) * d) ((5 # 10) * d))) /\
  (forall pre p, parse_float pre = Some p ->
     sets_border_to w (VStr (pre ++ "px")) d (Qmin p ((5 # 10) * d))) /\
  (forall n q, py_num n = Some q -> truthy n = true ->
     sets_border_to w n d (Qmin q ((5 # 10) * d))) /\
  (0 <= d ->
     sets_border_to w (VStr "50%") d ((5 # 10) * d) /\
     sets_border_to w (VStr "120%") d ((5 # 10) * d)).
Proof.
  intros Hih.
  assert (Hpct : forall pre p, parse_float pre = Some p ->
     sets_border_to w (VStr (pre ++ "%")) d (Qmin ((p / 100) * d) ((5 # 10) * d))).
  { intros pre p Hp.
    eapply sets_border_to_proper;
      [|eapply (ring_border_from_raw w _ (VFloat (d * (p / inject_Z 100)))); [|reflexivity]].
    - rewrite (Qmult_comm (p / 100)), (Qmult_comm (5 # 10)). reflexivity.
    - border_run Hih.
      rewrite truthy_str_app, (py_suffix_app pre "%" 1), (py_drop_last_app pre "%" 1)
        by reflexivity.
      cbv [negb String.eqb Ascii.eqb Bool.eqb]. rewrite Hp. cbv beta iota zeta delta [negb].
      destruct (py_gt _ _); reflexivity. }
  split; [|split; [exact Hpct|split; [|split]]].
  - intros b Hb.
    eapply sets_border_to_proper;
      [|eapply (ring_border_from_raw w _ (VFloat (d * (1 # 10)))); [|reflexivity]].
    + rewrite (Qmult_comm (1 # 10)), (Qmult_comm (5 # 10)). reflexivity.
    + border_run Hih. rewrite Hb. cbv beta iota zeta delta [negb]. destruct (py_gt _ _); reflexivity.
  - intros pre p Hp.
    eapply sets_border_to_proper;
      [|eapply (ring_border_from_raw w _ (VFloat p)); [|reflexivity]].
    + rewrite (Qmult_comm (5 # 10)). reflexivity.
    + border_run Hih.
      rewrite truthy_str_app, py_suffix_px_1, (py_suffix_app pre "px" 2),
        (py_drop_last_app pre "px" 2) by reflexivity.
      cbv [negb String.eqb Ascii.eqb Bool.eqb]. rewrite Hp. cbv beta iota zeta delta [negb].
      destruct (py_gt _ _); reflexivity.
  - intros n q Hn Ht.
    eapply sets_border_to_proper; [|eapply (ring_border_from_raw w _ n); [|exact Hn]].
    + rewrite (Qmult_comm (5 # 10)). reflexivity.
    + border_run Hih. rewrite Ht. cbv beta iota zeta delta [negb].
      destruct n; simpl in Hn; try discriminate; destruct (py_gt _ _); reflexivity.
  - intros Hd. split.
    + eapply sets_border_to_proper; [|apply (Hpct "50" 50); reflexivity].
      assert (H : (5 # 10) <= 50 / 100) by (unfold Qle; simpl; lia).
      rewrite (Q.min_r _ _ (Qmult_le_compat_r _ _ d H Hd)).
      reflexivity.
    + eapply sets_border_to_proper; [|apply (Hpct "120" 120); reflexivity].
      assert (H : (5 # 10) <= 120 / 100) by (unfold Qle; simpl; lia).
      rewrite (Q.min_r _ _ (Qmult_le_compat_r _ _ d H Hd)).
      reflexivity.
Qed.

(** Unfolding [Ring.compute_margin] up to its data-dependent tests. *)
Ltac margin_run :=
  unfold compute_margin; cbv [bind get lift getitem ret raise emit py_float];
  cbv beta iota zeta delta [negb].

Lemma py_gt_num (a : pyval) (x c : Q) :
  py_num a = Some x -> py_gt a (VFloat c) = negb (Qle_bool x c).
Proof. destruct a; simpl; intros H; inversion H; reflexivity. Qed.

Lemma truthy_num (a : pyval) (x : Q) :
  py_num a = Some x -> truthy a = negb (Qeq_bool x 0).
Proof.
  destruct a; simpl; intros H; inversion H; subst; [|reflexivity].
  f_equal. destruct (Z.eqb_spec z 0) as [->|Hz]; [reflexivity|].
  symmetry. apply not_true_iff_false. intros Hq. apply Qeq_bool_iff in Hq.
  apply Hz. unfold Qeq in Hq. simpl in Hq. lia.
Qed.

(** C2: on a [Ring] of size [sz >= 0] whose [inner_height] is [d], a
    number [m > 0.1 sz] is kept as the margin (no clamp), a warning is
    printed, and the size becomes [d + 2 m] through the [size] setter,
    so [css_params] (which the final render reads) holds the new size;
    a falsy margin becomes [0.1 sz] and leaves the size alone. *)
Theorem ring_set_margin_spec (w : widget) (sz d : Q) :
  py_num (_size w) = Some sz ->
  0 <= sz ->
  css_params w !! "inner_height" = Some (VFloat d) ->
  (forall m q, py_num m = Some q -> sz * (1 # 10) < q ->
     exists w' ns y out,
       set_margin Ring m w =
         Ok tt w' [EPrint "margin overfitted"; ERender out; ERender (value w')] /\
       _margin w' = m /\ css_params w' !! "margin" = Some m /\
       _size w' = ns /\ css_params w' !! "size" = Some ns /\
       py_num ns = Some y /\ y == d + 2 * q /\
       value w' = render_out w') /\
  (forall m, truthy m = false ->
     exists w' y,
       set_margin Ring m w = Ok tt w' [ERender (value w')] /\
       _size w' = _size w /\
       css_params w' !! "margin" = Some (_margin w') /\
       py_num (_margin w') = Some y /\ y == (1 # 10) * sz).
Proof.
  intros Hsz Hpos Hih.
  pose proof (py_mul_num_float _ sz (1 # 10) Hsz) as Hlim.
  split.
  - intros m q Hm Hq.
    assert (Ht : truthy m = true).
    { rewrite (truthy_num m q Hm). apply negb_true_iff, not_true_iff_false.
      intros E. apply Qeq_bool_iff in E. rewrite E in Hq.
      apply (Qlt_not_le _ _ Hq). rewrite <- (Qmult_0_l (1 # 10)).
      apply Qmult_le_compat_r; [exact Hpos|discriminate]. }
    assert (Hg : py_gt m (VFloat (sz * (1 # 10))) = true).
    { rewrite (py_gt_num m q _ Hm). apply negb_true_iff, not_true_iff_false.
      intros E. apply Qle_bool_iff in E. exact (Qlt_not_le _ _ Hq E). }
    (* the new size, [inner + 2*margin] *)
    destruct (py_add (VFloat d) match py_mul (VInt 2) m with inr v => v | inl _ => VNone end)
      as [e|ns] eqn:Hns; [destruct m; simpl in Hm, Hns; discriminate|].
    assert (Hy : exists y, py_num ns = Some y /\ y == d + 2 * q).
    { destruct m; simpl in Hm, Hns; inversion Hm; inversion Hns; subst; simpl.
      - eexists; split; [reflexivity|]. rewrite inject_Z_mult. reflexivity.
      - eexists; split; reflexivity. }
    destruct Hy as (y & Hy & Hyq).
    set (w2 := after_set ASize (ring_size_params ns y) ns w).
    assert (Hc : compute_margin Ring m w =
                 Ok {[ "margin" := m ]} w2 [EPrint "margin overfitted"; ERender (value w2)]).
    { margin_run. rewrite Ht. cbv beta iota zeta delta [negb].
      assert (Hm' : match m with VInt _ | VFloat _ => True | _ => False end)
        by (destruct m; simpl in Hm; try discriminate; exact I).
      destruct m; try contradiction; cbv beta iota zeta; rewrite Hlim;
        cbv beta iota zeta; rewrite Hg; cbv beta iota zeta; rewrite Hih; cbv beta iota zeta;
        cbv [py_mul py_add py_num] in Hns |- *; cbv beta iota zeta in Hns |- *;
        injection Hns as Hns; rewrite Hns;
        rewrite (set_size_ring_ok ns y w Hy); reflexivity. }
    unfold set_margin.
    rewrite (setter_ok AMargin _ w w2 _ _ m Hc ltac:(simpl; simplify_map_eq; reflexivity)).
    exists (after_set AMargin {[ "margin" := m ]} m w2), ns, y, (value w2).
    split; [reflexivity|].
    unfold w2, after_set. destruct w; cbn.
    split; [reflexivity|].
    split; [apply lookup_union_Some_l; simplify_map_eq; reflexivity|].
    split; [reflexivity|].
    split.
    { rewrite lookup_union_r by (simplify_map_eq; reflexivity).
      apply lookup_union_Some_l, ring_size_params_size. }
    split; [exact Hy|]. split; [exact Hyq|reflexivity].
  - intros m Hm.
    set (v := VFloat (sz * (1 # 10))).
    assert (Hg : py_gt v v = false).
    { unfold v. rewrite (py_gt_num (VFloat _) _ _ eq_refl).
      apply negb_false_iff, Qle_bool_iff, Qle_refl. }
    assert (Hc : compute_margin Ring m w = Ok {[ "margin" := v ]} w []).
    { margin_run. rewrite Hm, Hlim. cbv beta iota zeta delta [negb]. rewrite Hlim.
      cbv beta iota zeta. fold v. rewrite Hg. reflexivity. }
    unfold set_margin.
    rewrite (setter_ok AMargin _ w w _ _ v Hc ltac:(simpl; simplify_map_eq; reflexivity)).
    exists (after_set AMargin {[ "margin" := v ]} v w), (sz * (1 # 10)).
    split; [reflexivity|].
    unfold after_set. destruct w; cbn.
    split; [reflexivity|].
    split; [apply lookup_union_Some_l; simplify_map_eq; reflexivity|].
    split; [reflexivity|apply Qmult_comm].
Qed.

(** A second application of the same merge is absorbed. *)
Lemma after_set_idem (a : attr) (P : gmap string pyval) (v : pyval) (w : widget) :
  after_set a P v (after_set a P v w) = after_set a P v w.
Proof.
  unfold after_set. destruct w, a; cbn;
    rewrite (assoc_L union), (idemp_L union); reflexivity.
Qed.

Lemma after_set_fields (a : attr) (P : gmap string pyval) (v : pyval) (w : widget) :
  css (after_set a P v w) = css w /\ html (after_set a P v w) = html w /\
  uid (after_set a P v w) = uid w /\ extra (after_set a P v w) = extra w /\
  css_params (after_set a P v w) = P ∪ css_params w.
Proof. unfold after_set. destruct w, a; cbn; repeat split. Qed.

(** Re-running a setter whose hook leaves the widget alone and returns
    the same dictionary from the widget it produced. *)
Lemma setter_idem (a : attr) (compute : M (gmap string pyval)) (w : widget)
    (P : gmap string pyval) :
  compute w = Ok P w [] ->
  (forall v, compute (after_set a P v w) = Ok P (after_set a P v w) []) ->
  forall w1 tr, setter a compute w = Ok tt w1 tr ->
  tr = [ERender (value w1)] /\ setter a compute w1 = Ok tt w1 [ERender (value w1)].
Proof.
  intros H0 H1 w1 tr Hs.
  destruct (P !! attr_key a) as [v|] eqn:Hv.
  - rewrite (setter_ok a compute w w P [] v H0 Hv) in Hs. injection Hs as <- <-.
    rewrite (setter_ok a compute _ _ P [] v (H1 v) Hv), after_set_idem. split; reflexivity.
  - unfold setter, bind at 1 in Hs. rewrite H0 in Hs. run_m.
    rewrite Hv in Hs. discriminate.
Qed.

Ltac red_m := cbv beta iota zeta delta [negb].

Lemma set_size_ring_shape (n : pyval) (w : widget) :
  match set_size Ring n w with
  | Ok _ w' tr => exists q, py_num n = Some q /\
      w' = after_set ASize (ring_size_params n q) n w /\ tr = [ERender (value w')]
  | Err _ w' _ => w' = w
  end.
Proof.
  destruct (py_num n) as [q|] eqn:Hn.
  - rewrite (set_size_ring_ok n q w Hn). eauto.
  - destruct n; try discriminate; reflexivity.
Qed.

(** Case analysis on the data a hook tests. *)
Ltac split_data :=
  repeat (red_m; match goal with
  | |- context [css_params ?w !! ?k] => destruct (css_params w !! k)
  | |- context [parse_float ?s] => destruct (parse_float s)
  | |- context [parse_int ?s] => destruct (parse_int s)
  | |- context [String.eqb ?x ?y] => destruct (String.eqb x y)
  | |- context [py_gt ?x ?y] => destruct (py_gt x y)
  | |- context [truthy ?x] => destruct (truthy x)
  | |- context [py_mul ?x ?y] => destruct (py_mul x y)
  | |- context [py_add ?x ?y] => destruct (py_add x y)
  | |- context [set_size Ring ?n ?w] =>
      pose proof (set_size_ring_shape n w); destruct (set_size Ring n w)
  | v : pyval |- _ => destruct v
  end).

(** [Ring.compute_border] leaves the widget alone and reads nothing of
    it but [css_params['inner_height']]. *)
Lemma compute_border_reads (c : cls) (b : pyval) (w w' : widget) :
  css_params w' !! "inner_height" = css_params w !! "inner_height" ->
  compute_border c b w' = restate w' (compute_border c b w) /\
  ((exists v, compute_border c b w = Ok {[ "border" := v ]} w []) \/
   (exists e, compute_border c b w = Err e w [])).
Proof.
  intros H. destruct c; [split; [reflexivity|left; eexists; reflexivity]|].
  unfold compute_border; cbv [bind get lift getitem ret raise py_float emit restate].
  red_m. rewrite H.
  split_data; split; first [reflexivity | left; eexists; reflexivity | right; eexists; reflexivity].
Qed.

Lemma res_nil {A} (r : res A) :
  match r with Ok b w2 t2 => Ok b w2 ([] ++ t2) | Err e w2 t2 => Err e w2 ([] ++ t2) end = r.
Proof. destruct r; reflexivity. Qed.

(** [Ring.compute_margin], step by step. *)
Lemma compute_margin_unfold (m : pyval) (w : widget) :
  compute_margin Ring m w =
  match margin_pre (_size w) m with
  | inl e => Err e w []
  | inr v =>
      match py_mul (_size w) (VFloat (1 # 10)) with
      | inl e => Err e w []
      | inr lim =>
          if py_gt v lim then bind (emit (EPrint "margin overfitted")) (fun _ => margin_tail v) w
          else Ok {[ "margin" := v ]} w []
      end
  end.
Proof.
  unfold compute_margin, margin_pre, margin_tail.
  cbv [bind get lift ret raise]. red_m.
  destruct (truthy m), m; try destruct (parse_int _); red_m;
    repeat (red_m; match goal with
    | E : py_mul ?a ?b = _ |- context [py_mul ?a ?b] => rewrite E
    | |- context [py_mul (_size ?x) ?b] => destruct (py_mul (_size x) b) eqn:?
    | |- context [py_gt ?a ?b] => destruct (py_gt a b)
    end); repeat rewrite res_nil; reflexivity.
Qed.

Lemma emit_first {A} (e : event) (k : unit -> M A) (w : widget) :
  match bind (emit e) k w with
  | Ok _ _ tr | Err _ _ tr => exists tr', tr = e :: tr'
  end.
Proof. unfold bind, emit. destruct (k tt w); eexists; reflexivity. Qed.

Lemma compute_margin_quiet (c : cls) (m : pyval) (w w' : widget) (P : gmap string pyval) :
  _size w' = _size w ->
  compute_margin c m w = Ok P w [] -> compute_margin c m w' = Ok P w' [].
Proof.
  intros Hs H. destruct c; [injection H as <-; reflexivity|].
  rewrite compute_margin_unfold in *. rewrite Hs.
  destruct (margin_pre (_size w) m); [discriminate|].
  destruct (py_mul (_size w) (VFloat (1 # 10))); [discriminate|].
  match goal with |- context [py_gt ?a ?b] => destruct (py_gt a b) end.
  - pose proof (emit_first (EPrint "margin overfitted") (fun _ => margin_tail p) w) as He.
    rewrite H in He. destruct He as [? He]. discriminate.
  - injection H as <-. reflexivity.
Qed.

Lemma compute_margin_shape (m : pyval) (w : widget) :
  match compute_margin Ring m w with
  | Ok P w' tr => (exists v, P = {[ "margin" := v ]}) /\
      ((w' = w /\ tr = []) \/
       ((exists tr', tr = EPrint "margin overfitted" :: tr') /\
        exists ns q, py_num ns = Some q /\ w' = after_set ASize (ring_size_params ns q) ns w))
  | Err _ w' _ => w' = w
  end.
Proof.
  rewrite compute_margin_unfold.
  destruct (margin_pre (_size w) m) as [|v]; [reflexivity|].
  destruct (py_mul (_size w) (VFloat (1 # 10))); [reflexivity|].
  match goal with |- context [py_gt ?a ?b] => destruct (py_gt a b) end; [|split; [eexists; reflexivity|left; split; reflexivity]].
  unfold margin_tail; cbv [bind emit get lift getitem ret raise].
  repeat (red_m; match goal with
  | |- context [css_params ?w !! ?k] => destruct (css_params w !! k)
  | |- context [py_float ?x] => destruct (py_float x)
  | |- context [py_mul ?x ?y] => destruct (py_mul x y)
  | |- context [py_add ?x ?y] => destruct (py_add x y)
  | |- context [set_size Ring ?n ?w] =>
      pose proof (set_size_ring_shape n w); destruct (set_size Ring n w)
  end); try reflexivity; try assumption.
  split; [eexists; reflexivity|].
  right; split; [eexists; reflexivity|].
  match goal with H : ∃ q, _ |- _ => destruct H as (? & ? & -> & _) end. eauto.
Qed.

Lemma after_set_lookup_ne (a : attr) (P : gmap string pyval) (v : pyval) (w : widget) (k : string) :
  P !! k = None -> css_params (after_set a P v w) !! k = css_params w !! k.
Proof.
  intros H. destruct (after_set_fields a P v w) as (_ & _ & _ & _ & ->).
  apply lookup_union_r, H.
Qed.

(** C10: [setColor(c)] writes only the [color] entry of [css_params]
    (every other key, [size], [border], [margin], [background_color],
    [css_class] and the extra keys among them, keeps its value), sets
    [_color] and re-renders the markup, and leaves every other field
    alone; [setBackgroundColor(c)] likewise with [background_color]. *)
Theorem set_color_frame (c : pyval) (w : widget) :
  (exists w', set_color c w = Ok tt w' [ERender (value w')] /\
     css_params w' = <[ "color" := c ]> (css_params w) /\
     (forall k, k <> "color" -> css_params w' !! k = css_params w !! k) /\
     css w' = css w /\ html w' = html w /\ uid w' = uid w /\ extra w' = extra w /\
     _size w' = _size w /\ _border w' = _border w /\ _margin w' = _margin w /\
     _color w' = c /\ _background_color w' = _background_color w /\
     value w' = render_out w') /\
  (exists w', set_background_color c w = Ok tt w' [ERender (value w')] /\
     css_params w' = <[ "background_color" := c ]> (css_params w) /\
     (forall k, k <> "background_color" -> css_params w' !! k = css_params w !! k) /\
     css w' = css w /\ html w' = html w /\ uid w' = uid w /\ extra w' = extra w /\
     _size w' = _size w /\ _border w' = _border w /\ _margin w' = _margin w /\
     _color w' = _color w /\ _background_color w' = c /\
     value w' = render_out w').
Proof.
  split.
  - exists (after_set AColor {[ "color" := c ]} c w). unfold set_color.
    rewrite (setter_ok AColor (compute_color c) w w {[ "color" := c ]} [] c eq_refl
               (lookup_singleton_eq _ _)).
    split; [reflexivity|].
    rewrite insert_union_singleton_l.
    split; [destruct w; reflexivity|].
    split; [intros k Hk; apply after_set_lookup_ne, lookup_singleton_ne; congruence|].
    destruct w; repeat split.
  - exists (after_set ABackgroundColor {[ "background_color" := c ]} c w). unfold set_background_color.
    rewrite (setter_ok ABackgroundColor (compute_background_color c) w w
               {[ "background_color" := c ]} [] c eq_refl (lookup_singleton_eq _ _)).
    split; [reflexivity|].
    rewrite insert_union_singleton_l.
    split; [destruct w; reflexivity|].
    split; [intros k Hk; apply after_set_lookup_ne, lookup_singleton_ne; congruence|].
    destruct w; repeat split.
Qed.

(** C7: [render] is deterministic: two widgets with the same [css],
    [html], [uid] and [css_params] render the same string, and rendering
    again without a mutation in between gives that string again. *)
Theorem render_deterministic (w1 w2 : widget) :
  css w1 = css w2 -> html w1 = html w2 -> uid w1 = uid w2 -> css_params w1 = css_params w2 ->
  exists out,
    render w1 = Ok tt (with_value out w1) [ERender out] /\
    render w2 = Ok tt (with_value out w2) [ERender out] /\
    render (with_value out w1) = Ok tt (with_value out w1) [ERender out].
Proof.
  intros Hc Hh Hu Hp. exists (render_out w1).
  unfold render. destruct w1, w2; cbn in *; subst. repeat split.
Qed.
Lemma render_deterministic_witness :
  exists out,
    render ring_w0 = Ok tt (with_value out ring_w0) [ERender out] /\
    render ring_w0 = Ok tt (with_value out ring_w0) [ERender out] /\
    render (with_value out ring_w0) = Ok tt (with_value out ring_w0) [ERender out].
Proof. apply (render_deterministic ring_w0 ring_w0); reflexivity. Defined.
Lemma after_set_size (a : attr) (P : gmap string pyval) (v : pyval) (w : widget) :
  a <> ASize -> _size (after_set a P v w) = _size w.
Proof. intros H. destruct w, a; try reflexivity; congruence. Qed.

(** C6 (amended): a setter call that succeeded, and that for
    [setMargin] emitted nothing but its render, leaves a widget on which
    the same call with the same input succeeds again, re-renders, and
    changes neither the state nor the markup. *)
Theorem setter_idempotent (c : cls) (o : op) (w w1 : widget) (tr : list event) :
  run_op c o w = Ok tt w1 tr ->
  is_margin o = false \/ tr = [ERender (value w1)] ->
  tr = [ERender (value w1)] /\ run_op c o w1 = Ok tt w1 [ERender (value w1)].
Proof.
  intros Hr Hm. destruct o as [n|b|m|col|col]; cbn [run_op] in *.
  - (* size *)
    destruct c.
    + exact (setter_idem ASize _ w _ eq_refl (fun _ => eq_refl) w1 tr Hr).
    + pose proof (set_size_ring_shape n w) as Hs. rewrite Hr in Hs.
      destruct Hs as (q & Hq & _).
      exact (setter_idem ASize _ w _ (ring_compute_size_ok n q w Hq)
               (fun v => ring_compute_size_ok n q _ Hq) w1 tr Hr).
  - (* border *)
    destruct (compute_border_reads c b w w eq_refl) as [_ [[v Hv] | [e He]]].
    + refine (setter_idem ABorder _ w _ Hv _ w1 tr Hr).
      intros v'. assert (Hih : css_params (after_set ABorder {[ "border" := v ]} v' w) !! "inner_height"
                              = css_params w !! "inner_height").
      { apply after_set_lookup_ne, lookup_singleton_ne. discriminate. }
      rewrite (proj1 (compute_border_reads c b w _ Hih)), Hv. reflexivity.
    + unfold set_border in Hr. rewrite (setter_err _ _ w w e [] He) in Hr. discriminate.
  - (* margin *)
    destruct Hm as [Hm|Htr]; [discriminate|]. subst tr.
    assert (Hq : exists P, compute_margin c m w = Ok P w []).
    { destruct c; [eexists; reflexivity|].
      pose proof (compute_margin_shape m w) as Hs.
      destruct (compute_margin Ring m w) as [P w' t|e w' t] eqn:Hc.
      - destruct Hs as [[v ->] [[-> ->] | [[t' ->] _]]]; [eauto|].
        unfold set_margin in Hr. rewrite (setter_ok AMargin _ w _ _ _ v Hc (lookup_singleton_eq _ _)) in Hr.
        injection Hr as _ Ht. discriminate.
      - subst w'. unfold set_margin in Hr. rewrite (setter_err _ _ w w e t Hc) in Hr.
        discriminate. }
    destruct Hq as [P Hc].
    refine (setter_idem AMargin _ w P Hc _ w1 _ Hr).
    intros v. apply (compute_margin_quiet c m w); [|exact Hc].
    apply after_set_size. discriminate.
  - (* color *)
    exact (setter_idem AColor _ w _ eq_refl (fun _ => eq_refl) w1 tr Hr).
  - (* background color *)
    exact (setter_idem ABackgroundColor _ w _ eq_refl (fun _ => eq_refl) w1 tr Hr).
Qed.
Lemma setter_idempotent_witness :
  set_color (VStr "red") (res_state (set_color (VStr "red") ring_w0)) =
  Ok tt (res_state (set_color (VStr "red") ring_w0))
     [ERender (value (res_state (set_color (VStr "red") ring_w0)))].
Proof.
  refine (proj2 (setter_idempotent Ring (OpColor (VStr "red")) ring_w0 _ _ _ (or_introl eq_refl)) ).
  reflexivity.
Defined.




(** C6 counterexample: on the default [Ring], [setMargin(5)] takes the
    overflow path; a second [setMargin(5)] grows [size] again (26.0, then
    30.8) and changes the markup. *)
Lemma set_margin_twice_example :
  let w1 := res_state (set_margin Ring (VInt 5) ring_w0) in
  let w2 := res_state (set_margin Ring (VInt 5) w1) in
  py_str (_size w1) = "26.0" /\ py_str (_size w2) = "30.8" /\
  String.eqb (value w1) (value w2) = false.
Proof. vm_compute. repeat split. Qed.
Lemma ring_inv_after_size (n : pyval) (q : Q) (w : widget) :
  py_num n = Some q -> ring_inv (after_set ASize (ring_size_params n q) n w).
Proof.
  intros Hn. exists q.
  assert (Hs : _size (after_set ASize (ring_size_params n q) n w) = n) by (destruct w; reflexivity).
  rewrite Hs. split; [exact Hn|].
  intros k Hk. destruct (after_set_fields ASize (ring_size_params n q) n w) as (_ & _ & _ & _ & ->).
  unfold ring_size_keys in Hk.
  rewrite !elem_of_union, !elem_of_singleton in Hk.
  destruct (ring_size_params n q !! k) as [x|] eqn:Hx.
  - apply lookup_union_Some_l, Hx.
  - exfalso. unfold ring_size_params in Hx.
    destruct Hk as [[[[-> | ->] | ->] | ->] | ->]; simplify_map_eq.
Qed.
Lemma ring_inv_after_other (a : attr) (key : string) (v x : pyval) (w : widget) :
  a <> ASize -> key ∉ ring_size_keys ->
  ring_inv w -> ring_inv (after_set a {[ key := x ]} v w).
Proof.
  intros Ha Hk (q & Hq & Hw). exists q. rewrite after_set_size by exact Ha.
  split; [exact Hq|]. intros k Hk'.
  rewrite after_set_lookup_ne; [apply Hw, Hk'|].
  apply lookup_singleton_ne. intros ->. contradiction.
Qed.
Lemma ring_inv_render (w : widget) : ring_inv w -> ring_inv (res_state (render w)).
Proof. intros H. destruct w; exact H. Qed.
Lemma ring_inv_bind {A B} (m : M A) (k : A -> M B) :
  (forall w, ring_inv w -> ring_inv (res_state (m w))) ->
  (forall a w, ring_inv w -> ring_inv (res_state (k a w))) ->
  forall w, ring_inv w -> ring_inv (res_state (bind m k w)).
Proof.
  intros Hm Hk w Hw. pose proof (Hm w Hw) as H1. unfold bind.
  destruct (m w) as [a w1 t1|e w1 t1]; [|exact H1].
  pose proof (Hk a w1 H1) as H2. destruct (k a w1); exact H2.
Qed.

(** A setter whose hook returned [{key: v}] from the widget [w1]. *)
Lemma ring_inv_setter (a : attr) (key : string) (compute : M (gmap string pyval)) (w w1 : widget)
    (v : pyval) (tr : list event) :
  a <> ASize -> key ∉ ring_size_keys -> attr_key a = key ->
  compute w = Ok {[ key := v ]} w1 tr -> ring_inv w1 ->
  ring_inv (res_state (setter a compute w)).
Proof.
  intros Ha Hk <- Hc Hw.
  rewrite (setter_ok a compute w w1 _ tr v Hc (lookup_singleton_eq _ _)).
  apply ring_inv_after_other; assumption.
Qed.
Lemma ring_inv_op (o : op) (w : widget) : ring_inv w -> ring_inv (res_state (run_op Ring o w)).
Proof.
  intros Hw. destruct o as [n|b|m|col|col]; cbn [run_op].
  - pose proof (set_size_ring_shape n w) as Hs.
    destruct (set_size Ring n w) as [u w' t|e w' t]; cbn [res_state].
    + destruct Hs as (q & Hq & -> & _). apply ring_inv_after_size, Hq.
    + subst w'. exact Hw.
  - destruct (compute_border_reads Ring b w w eq_refl) as [_ [[v Hv] | [e He]]].
    + apply (ring_inv_setter ABorder "border" _ w w v []); try assumption; try reflexivity;
        [discriminate | vm_compute; set_solver].
    + unfold set_border. rewrite (setter_err _ _ w w e [] He). exact Hw.
  - pose proof (compute_margin_shape m w) as Hs.
    destruct (compute_margin Ring m w) as [P w' t|e w' t] eqn:Hc.
    + destruct Hs as [[v ->] Hw'].
      apply (ring_inv_setter AMargin "margin" _ w w' v t); try assumption; try reflexivity;
        [discriminate | vm_compute; set_solver|].
      destruct Hw' as [[-> _] | [_ (ns & q & Hq & ->)]]; [exact Hw|].
      apply ring_inv_after_size, Hq.
    + subst w'. unfold set_margin. rewrite (setter_err _ _ w w e t Hc). exact Hw.
  - apply (ring_inv_setter AColor "color" _ w w col []); try assumption; try reflexivity;
      [discriminate | vm_compute; set_solver].
  - apply (ring_inv_setter ABackgroundColor "background_color" _ w w col []);
      try assumption; try reflexivity; [discriminate | vm_compute; set_solver].
Qed.
Lemma ring_inv_ops (os : list op) (w : widget) : ring_inv w -> ring_inv (res_state (run_ops Ring os w)).
Proof.
  revert w. induction os as [|o os IH]; intros w Hw; [exact Hw|].
  cbn [run_ops]. apply (ring_inv_bind _ _ (ring_inv_op o) (fun _ => IH)), Hw.
Qed.

(** C9: for a [Ring], [width], [height] and [size] in [css_params]
    equal [_size] and [inner_width], [inner_height] equal [0.8 _size],
    after construction and after any sequence of setter calls, the
    overflow path of [setMargin] included. *)
Theorem ring_invariant (size color background_color border margin : pyval)
    (extra : gmap string pyval) (u : string) (w : widget) (tr : list event) (os : list op) :
  construct_ring size color background_color border margin extra u = Ok tt w tr ->
  ring_inv w /\ ring_inv (res_state (run_ops Ring os w)).
Proof.
  intros H.
  assert (Hw : ring_inv w).
  { unfold construct_ring, construct in H.
    destruct (existsb _ fixed_keys); [discriminate|].
    unfold init_body, bind at 1 in H.
    pose proof (set_size_ring_shape size
      (init_widget ring_css ring_html u extra size color background_color border)) as Hs.
    destruct (set_size Ring size _) as [a w1 t1|e w1 t1]; [|discriminate].
    destruct Hs as (q & Hq & -> & _).
    set (w1 := after_set ASize _ _ _) in H.
    assert (H1 : ring_inv w1) by (apply ring_inv_after_size, Hq).
    change w with (res_state (Ok tt w tr)). rewrite <- H.
    assert (Hk : ring_inv (res_state ((let* _ := set_border Ring border in
                   let* _ := set_margin Ring margin in
                   let* _ := set_color color in
                   let* _ := set_background_color background_color in render) w1))).
    { apply (ring_inv_bind _ _ (ring_inv_op (OpBorder border))); [|exact H1].
      intros _ w2 H2. apply (ring_inv_bind _ _ (ring_inv_op (OpMargin margin))); [|exact H2].
      intros _ w3 H3. apply (ring_inv_bind _ _ (ring_inv_op (OpColor color))); [|exact H3].
      intros _ w4 H4. apply (ring_inv_bind _ _ (ring_inv_op (OpBackgroundColor background_color)));
        [|exact H4].
      intros _ w5 H5. apply ring_inv_render, H5. }
    destruct ((let* _ := set_border Ring border in
                   let* _ := set_margin Ring margin in
                   let* _ := set_color color in
                   let* _ := set_background_color background_color in render) w1); exact Hk. }
  split; [exact Hw | apply ring_inv_ops, Hw].
Qed.
Lemma ring_invariant_witness :
  ring_inv ring_w0 /\
  ring_inv (res_state (run_ops Ring [OpMargin (VInt 5); OpBorder (VStr "5px")] ring_w0)).
Proof.
  apply (ring_invariant (VInt 20) (VStr "black") (VStr "") VNone VNone ∅ uid1 ring_w0
           (match ring_default uid1 with Ok _ _ t => t | Err _ _ t => t end)).
  vm_compute. reflexivity.
Defined.


Close Scope Q_scope.


Example template_example_1 :
  Template.safe_substitute "a ${x} $y $$ ${doesNotExist} $ ${1} ${ab$"
    (<["x" := "1"]> (<["y" := "2"]> ∅))
  = "a 1 2 $ ${doesNotExist} $ ${1} ${ab$".
Proof. reflexivity. Qed.

Module TemplateFacts.
Import Template.
End TemplateFacts.

Lemma fill_lit (s : string) (u : string) : fill [inl s] u = s.
Proof. reflexivity. Qed.
Lemma fill_id (u : string) : fill id_piece u = u.
Proof. reflexivity. Qed.



Section UidRel.
Variables (u1 u2 : string).
End UidRel.

Example replace_all_example : replace_all "ab" "X" "aabab-ab" = "aXX-X".
Proof. reflexivity. Qed.



Open Scope Q_scope.

Lemma ring_compute_size_spec_witness :
  py_num (VInt 20) = Some 20 /\
  exists params, compute_size Ring (VInt 20) ring_w0 = Ok params ring_w0 [] /\
    params !! "inner_height" = Some (VFloat (20 * (8 # 10))).
Proof.
  split; [reflexivity|].
  destruct (ring_compute_size_spec (VInt 20) 20 ring_w0 eq_refl)
    as (params & H1 & _ & _ & _ & _ & _ & H6 & _).
  exists params. split; [exact H1 | exact H6].
Defined.

Lemma ring_set_border_spec_witness :
  css_params ring_w0 !! "inner_height" = Some (VFloat (160 # 10)) /\
  sets_border_to ring_w0 (VStr "120%") (160 # 10) ((5 # 10) * (160 # 10)).
Proof.
  assert (Hih : css_params ring_w0 !! "inner_height" = Some (VFloat (160 # 10)))
    by (vm_compute; reflexivity).
  split; [exact Hih|].
  destruct (ring_set_border_spec ring_w0 (160 # 10) Hih) as (_ & _ & _ & _ & H).
  apply H. vm_compute. intros E. discriminate E.
Defined.

Lemma ring_set_margin_spec_witness :
  exists w' ns y out,
    set_margin Ring (VInt 5) ring_w0 =
      Ok tt w' [EPrint "margin overfitted"; ERender out; ERender (value w')] /\
    _margin w' = VInt 5 /\ css_params w' !! "margin" = Some (VInt 5) /\
    _size w' = ns /\ css_params w' !! "size" = Some ns /\
    py_num ns = Some y /\ y == (160 # 10) + 2 * 5 /\
    value w' = render_out w'.
Proof.
  apply (proj1 (ring_set_margin_spec ring_w0 20 (160 # 10)
                  ltac:(vm_compute; reflexivity) ltac:(vm_compute; intros E; discriminate E)
                  ltac:(vm_compute; reflexivity)) (VInt 5) 5).
  - reflexivity.
  - vm_compute. reflexivity.
Defined.

Close Scope Q_scope.


